(** * Warp-Core benchmark harness (warp-core-benchmark-v3.js)

    A shallow embedding of [runBenchmark]: JavaScript numbers are IEEE-754
    binary64 values (Rocq's primitive floats), the WebGPU calls are
    operations of a small state-and-exception monad that records the calls
    made, and the body of [runBenchmark] is transcribed statement by
    statement. *)

From Stdlib Require Import ZArith List Floats Lia.
From stdpp Require Import gmap strings list fin_maps.

Set Default Proof Using "Type".
#[local] Set Warnings "-inexact-float".

(** ** JavaScript numbers *)

Module Number.

Open Scope float_scope.

(** An integer literal or counter as a Number (round to nearest even;
    exact below 2^53). *)
Definition of_Z (z : Z) : float :=
  SF2Prim (binary_normalize prec emax z 0 false).

Definition of_nat (n : nat) : float := of_Z (Z.of_nat n).

(** [Math.pow(x, n)] for a natural exponent, by repeated multiplication;
    [Math.pow(x, 2)] is [x * x]. *)
Fixpoint Math_pow (x : float) (n : nat) : float :=
  match n with
  | O => 1
  | S O => x
  | S k => x * Math_pow x k
  end.

(** Truncation toward zero of a finite Number. *)
Definition truncate (x : float) : option Z :=
  match Prim2SF x with
  | S754_zero _ => Some 0%Z
  | S754_finite s m e =>
      let mag := if (0 <=? e)%Z then Z.shiftl (Z.pos m) e
                 else Z.shiftr (Z.pos m) (- e) in
      Some (if s then (- mag)%Z else mag)
  | _ => None
  end.

(** ECMAScript [ToUint32], the conversion a [Uint32Array] applies. *)
Definition ToUint32 (x : float) : Z :=
  match truncate x with
  | Some z => (z mod 2 ^ 32)%Z
  | None => 0%Z
  end.

(** The binary32 bit pattern a [Float32Array] stores for a Number:
    round to nearest even at 24 bits of precision, then encode. *)
Definition sign_bit (s : bool) : Z := if s then 0x80000000%Z else 0%Z.

Definition float32_bits (x : float) : Z :=
  match Prim2SF x with
  | S754_zero s => sign_bit s
  | S754_infinity s => (sign_bit s + 0x7F800000)%Z
  | S754_nan => 0x7FC00000%Z
  | S754_finite s m e =>
      match binary_normalize 24 128 (if s then Z.neg m else Z.pos m) e s with
      | S754_finite _ m' e' =>
          if (Z.pos m' <? 2 ^ 23)%Z then (sign_bit s + Z.pos m')%Z
          else (sign_bit s + Z.shiftl (e' + 150) 23 + (Z.pos m' - 2 ^ 23))%Z
      | S754_infinity _ => (sign_bit s + 0x7F800000)%Z
      | S754_zero _ => sign_bit s
      | S754_nan => 0x7FC00000%Z
      end
  end.

(** |x - target| <= tol, as JavaScript would compute it. *)
Definition approx (x target tol : float) : bool :=
  abs (x - target) <=? tol.

End Number.

(** ** Typed arrays, as the bytes [writeBuffer] copies (little-endian) *)

Definition le_bytes (word : Z) : list Z :=
  map (fun i => Z.land (Z.shiftr word (8 * i)) 255) [0; 1; 2; 3]%Z.

Definition Uint32Array (xs : list float) : list Z :=
  flat_map (fun x => le_bytes (Number.ToUint32 x)) xs.

Definition Float32Array (xs : list float) : list Z :=
  flat_map (fun x => le_bytes (Number.float32_bits x)) xs.

(** ** WebGPU objects *)

Module GPUBufferUsage.
Definition MAP_READ : Z := 0x0001.
Definition MAP_WRITE : Z := 0x0002.
Definition COPY_SRC : Z := 0x0004.
Definition COPY_DST : Z := 0x0008.
Definition INDEX : Z := 0x0010.
Definition VERTEX : Z := 0x0020.
Definition UNIFORM : Z := 0x0040.
Definition STORAGE : Z := 0x0080.
End GPUBufferUsage.

Record Adapter := { features : gset string }.

Record Device := { enabledFeatures : list string }.

(** A bind group layout is the list of binding slots it declares; a
    pipeline carries one layout per bind group index. *)
Definition BindGroupLayout := list Z.

Record Pipeline := { layouts : list BindGroupLayout }.

Definition getBindGroupLayout (pipeline : Pipeline) (index : nat) : BindGroupLayout :=
  nth index (layouts pipeline) [].

(** A buffer: the descriptor it was created with and the bytes written to
    it (offset to byte; a buffer is zero-initialised, so an absent offset
    reads 0). *)
Record Buffer := {
  buf_size : float;
  buf_usage : Z;
  buf_data : gmap Z Z
}.

Inductive Command :=
| BeginComputePass
| SetPipeline (pipeline : Pipeline)
| SetBindGroup (index : nat) (bindGroup : nat)
| DispatchWorkgroups (workgroupCountX : float)
| EndPass.

(** A command encoder (and the compute pass opened on it): its handle and
    the commands recorded so far. [finish] turns it into a command buffer. *)
Record CommandEncoder := {
  enc_handle : nat;
  enc_commands : list Command
}.

Definition CommandBuffer := CommandEncoder.

(** The calls that reach the adapter, the device, the queue, the clock and
    the console, in the order the program makes them. *)
Inductive Event :=
| ERequestDevice (requiredFeatures : list string)
| ECreateBuffer (handle : nat) (size : float) (usage : Z)
| EWriteBuffer (buffer : nat) (bufferOffset : Z) (bytes : list Z)
| ECreateBindGroup (handle : nat) (layout : BindGroupLayout) (entries : list (Z * nat))
| ESubmit (commandBuffers : list CommandBuffer)
| EWorkDone
| ENow (t : float)
| ELog (avgLatency tflops : float).

Inductive Exn :=
| Error (message : string)
| TypeError (message : string).

(** ** The environment and the state of a run *)

(** What the program cannot decide: the adapter the browser offers (if
    any), the pipeline [createPipeline] of warp-core-pipeline.js returns,
    and what the k-th call of [performance.now()] reads. *)
Record World := {
  adapter : option Adapter;
  pipeline_of_world : Pipeline;
  clock : nat -> float
}.

Record State := {
  next_handle : nat;
  buffers : gmap nat Buffer;
  clock_reads : nat;
  trace : list Event
}.

Definition init : State :=
  {| next_handle := 0; buffers := ∅; clock_reads := 0; trace := [] |}.

Definition log (e : Event) (s : State) : State :=
  {| next_handle := next_handle s; buffers := buffers s;
     clock_reads := clock_reads s; trace := trace s ++ [e] |}.

Definition fresh (s : State) : State :=
  {| next_handle := S (next_handle s); buffers := buffers s;
     clock_reads := clock_reads s; trace := trace s |}.

Definition update_buffers (f : gmap nat Buffer -> gmap nat Buffer) (s : State) : State :=
  {| next_handle := next_handle s; buffers := f (buffers s);
     clock_reads := clock_reads s; trace := trace s |}.

Definition tick (s : State) : State :=
  {| next_handle := next_handle s; buffers := buffers s;
     clock_reads := S (clock_reads s); trace := trace s |}.

(** ** The monad: state and exceptions *)

Inductive Outcome (A : Type) :=
| Return (a : A) (s : State)
| Throw (e : Exn) (s : State).
Arguments Return {A} a s.
Arguments Throw {A} e s.

Definition M (A : Type) := State -> Outcome A.

Definition ret {A} (a : A) : M A := fun s => Return a s.

Definition throw {A} (e : Exn) : M A := fun s => Throw e s.

Definition bind {A B} (m : M A) (k : A -> M B) : M B :=
  fun s => match m s with
           | Return a s' => k a s'
           | Throw e s' => Throw e s'
           end.

Notation "x <- c1 ;; c2" := (bind c1 (fun x => c2))
  (at level 100, c1 at next level, right associativity).
Notation "c1 ;; c2" := (bind c1 (fun _ => c2))
  (at level 100, right associativity).

(** [for (let i = 0; i < n; i++) body(i)], the counter starting at [i]. *)
Fixpoint for_from (i count : nat) (body : nat -> M unit) : M unit :=
  match count with
  | O => ret tt
  | S count' => body i ;; for_from (S i) count' body
  end.

Definition for_lt (n : nat) (body : nat -> M unit) : M unit := for_from 0 n body.

(** ** The WebGPU calls the program makes *)

(** [adapter.features.has(name)] *)
Definition has (supported : gset string) (name : string) : bool :=
  bool_decide (name ∈ supported).

(** [queue.writeBuffer] copies the bytes to [bufferOffset ..]. *)
Fixpoint store_bytes (offset : Z) (bytes : list Z) (mem : gmap Z Z) : gmap Z Z :=
  match bytes with
  | [] => mem
  | b :: bs => store_bytes (offset + 1) bs (<[offset := b]> mem)
  end.

(** The device-side validation of [writeBuffer]: the buffer is a copy
    destination, offset and length are multiples of 4 and the range lies
    inside the buffer. A write that fails it is dropped (a validation
    error on the device, no exception). *)
Definition valid_write (b : Buffer) (offset : Z) (bytes : list Z) : bool :=
  (Z.land (buf_usage b) GPUBufferUsage.COPY_DST =? GPUBufferUsage.COPY_DST)%Z
  && (0 <=? offset)%Z
  && (offset mod 4 =? 0)%Z
  && (Z.of_nat (length bytes) mod 4 =? 0)%Z
  && (Number.of_Z (offset + Z.of_nat (length bytes)) <=? buf_size b)%float.

Definition write_buffer (b : Buffer) (offset : Z) (bytes : list Z) : Buffer :=
  if valid_write b offset bytes
  then {| buf_size := buf_size b; buf_usage := buf_usage b;
          buf_data := store_bytes offset bytes (buf_data b) |}
  else b.

(** The [len] bytes of a buffer from [offset]. *)
Definition read_bytes (b : Buffer) (offset : Z) (len : nat) : list Z :=
  map (fun i => default 0%Z (buf_data b !! (offset + Z.of_nat i)%Z)) (seq 0 len).

(** Recording into a compute pass; the pass and its encoder are one object. *)
Definition record (c : Command) (e : CommandEncoder) : CommandEncoder :=
  {| enc_handle := enc_handle e; enc_commands := enc_commands e ++ [c] |}.

Definition beginComputePass (encoder : CommandEncoder) : CommandEncoder :=
  record BeginComputePass encoder.
Definition setPipeline (pass : CommandEncoder) (pipeline : Pipeline) : CommandEncoder :=
  record (SetPipeline pipeline) pass.
Definition setBindGroup (pass : CommandEncoder) (index : nat) (bindGroup : nat) : CommandEncoder :=
  record (SetBindGroup index bindGroup) pass.
Definition dispatchWorkgroups (pass : CommandEncoder) (workgroupCountX : float) : CommandEncoder :=
  record (DispatchWorkgroups workgroupCountX) pass.
Definition endPass (pass : CommandEncoder) : CommandEncoder :=
  record EndPass pass.
Definition finish (encoder : CommandEncoder) : CommandBuffer := encoder.

Record Metrics := { latency : float; tflops : float }.

Section Program.

Variable w : World.

Definition requestAdapter : M (option Adapter) := ret (adapter w).

(** [adapter.requestDevice] rejects with a [TypeError] when a required
    feature is not one of the adapter's. *)
Definition requestDevice (a : Adapter) (requiredFeatures : list string) : M Device :=
  fun s =>
    let s' := log (ERequestDevice requiredFeatures) s in
    if forallb (has (features a)) requiredFeatures
    then Return {| enabledFeatures := requiredFeatures |} s'
    else Throw (TypeError "requiredFeatures") s'.

(** [createPipeline] of warp-core-pipeline.js: whatever pipeline the
    environment holds. *)
Definition createPipeline (device : Device) : M Pipeline :=
  ret (pipeline_of_world w).

(** [device.createBuffer({size, usage})]: the buffer keeps the size as the
    Number the program passed. *)
Definition createBuffer (device : Device) (size : float) (usage : Z) : M nat :=
  fun s =>
    let h := next_handle s in
    let b := {| buf_size := size; buf_usage := usage; buf_data := ∅ |} in
    Return h (log (ECreateBuffer h size usage)
                (update_buffers (insert h b) (fresh s))).

(** [device.queue.writeBuffer(buffer, bufferOffset, data)] *)
Definition writeBuffer (device : Device) (buffer : nat) (bufferOffset : Z)
    (bytes : list Z) : M unit :=
  fun s =>
    let write b := write_buffer b bufferOffset bytes in
    Return tt (log (EWriteBuffer buffer bufferOffset bytes)
                 (update_buffers (alter write buffer) s)).

(** [device.createBindGroup({layout, entries})]: entries are pairs of a
    binding slot and a buffer. The call checks nothing against the layout
    on the program's side: WebGPU validates on the device and raises no
    exception. *)
Definition createBindGroup (device : Device) (layout : BindGroupLayout)
    (entries : list (Z * nat)) : M nat :=
  fun s =>
    let h := next_handle s in
    Return h (log (ECreateBindGroup h layout entries) (fresh s)).

Definition createCommandEncoder (device : Device) : M CommandEncoder :=
  fun s => Return {| enc_handle := next_handle s; enc_commands := [] |} (fresh s).

Definition submit (device : Device) (commandBuffers : list CommandBuffer) : M unit :=
  fun s => Return tt (log (ESubmit commandBuffers) s).

(** [await device.queue.onSubmittedWorkDone()]: control comes back when
    every submission made so far has completed. *)
Definition onSubmittedWorkDone (device : Device) : M unit :=
  fun s => Return tt (log EWorkDone s).

(** [performance.now()] *)
Definition performance_now : M float :=
  fun s =>
    let t := clock w (clock_reads s) in
    Return t (log (ENow t) (tick s)).

(** [console.log] of the two results (the text formatting is left out). *)
Definition console_log (avgLatency tflops : float) : M unit :=
  fun s => Return tt (log (ELog avgLatency tflops) s).

(** ** The program *)

(** The body of [runBenchmark], with its two constants [dim] and
    [iterations] as parameters: [dim] is a Number; [iterations] bounds the
    loop counter, a natural number, and is a Number where the elapsed time
    is divided by it. *)
Definition benchmark (dim : float) (iterations : nat) : M Metrics :=
  adapter <- requestAdapter ;;
  match adapter with
  | None => throw (Error "WebGPU not supported")
  | Some adapter =>
    let hasTimestamps := has (features adapter) "timestamp-query" in
    device <- requestDevice adapter
                (if hasTimestamps then ["timestamp-query"] else []) ;;
    pipeline <- createPipeline device ;;

    inputBuffer <- createBuffer device (dim * 4)%float
                     (Z.lor GPUBufferUsage.STORAGE GPUBufferUsage.COPY_DST) ;;
    weightBuffer <- createBuffer device ((dim * dim / 8) * 4)%float
                      (Z.lor GPUBufferUsage.STORAGE GPUBufferUsage.COPY_DST) ;;
    outputBuffer <- createBuffer device (dim * 4)%float
                      (Z.lor GPUBufferUsage.STORAGE GPUBufferUsage.COPY_SRC) ;;
    paramBuffer <- createBuffer device 16%float
                     (Z.lor GPUBufferUsage.UNIFORM GPUBufferUsage.COPY_DST) ;;

    writeBuffer device paramBuffer 0 (Uint32Array [dim]) ;;
    writeBuffer device paramBuffer 4 (Float32Array [1e-5%float]) ;;
    writeBuffer device paramBuffer 8 (Float32Array [1.0%float]) ;;

    bindGroup <- createBindGroup device (getBindGroupLayout pipeline 0)
                   [(0, inputBuffer); (1, weightBuffer);
                    (2, outputBuffer); (3, paramBuffer)]%Z ;;

    warmUpEncoder <- createCommandEncoder device ;;
    let warmUpPass := beginComputePass warmUpEncoder in
    let warmUpPass := setPipeline warmUpPass pipeline in
    let warmUpPass := setBindGroup warmUpPass 0 bindGroup in
    let warmUpPass := dispatchWorkgroups warmUpPass dim in
    let warmUpEncoder := endPass warmUpPass in
    submit device [finish warmUpEncoder] ;;
    onSubmittedWorkDone device ;;

    start <- performance_now ;;
    for_lt iterations (fun i =>
      encoder <- createCommandEncoder device ;;
      let pass := beginComputePass encoder in
      let pass := setPipeline pass pipeline in
      let pass := setBindGroup pass 0 bindGroup in
      let pass := dispatchWorkgroups pass dim in
      let encoder := endPass pass in
      submit device [finish encoder]) ;;

    onSubmittedWorkDone device ;;
    end_ <- performance_now ;;

    let totalTime := (end_ - start)%float in
    let avgLatency := (totalTime / Number.of_nat iterations)%float in
    let opsPerPass := (2 * Number.Math_pow dim 2)%float in
    let tflops := ((opsPerPass / (avgLatency / 1000)) / 1e12)%float in
    console_log avgLatency tflops ;;
    ret {| latency := avgLatency; tflops := tflops |}
  end.

Definition runBenchmark : M Metrics :=
  let dim := 4096%float in
  let iterations := 100 in
  benchmark dim iterations.

End Program.

(** * Observing a run *)

(** What one pass of the program records and submits. *)
Definition pass_commands (p : Pipeline) (bg : nat) (dim : float) : list Command :=
  [BeginComputePass; SetPipeline p; SetBindGroup 0 bg;
   DispatchWorkgroups dim; EndPass].

Definition pass_buffer (p : Pipeline) (bg : nat) (dim : float) (h : nat) : CommandBuffer :=
  {| enc_handle := h; enc_commands := pass_commands p bg dim |}.

(** The state change of one iteration of the measured loop. *)
Definition measure_step (p : Pipeline) (bg : nat) (dim : float) (s : State) : State :=
  log (ESubmit [pass_buffer p bg dim (next_handle s)]) (fresh s).

Definition requested (a : Adapter) : list string :=
  if has (features a) "timestamp-query" then ["timestamp-query"] else [].

Definition storage_dst : Z := Z.lor GPUBufferUsage.STORAGE GPUBufferUsage.COPY_DST.
Definition storage_src : Z := Z.lor GPUBufferUsage.STORAGE GPUBufferUsage.COPY_SRC.
Definition uniform_dst : Z := Z.lor GPUBufferUsage.UNIFORM GPUBufferUsage.COPY_DST.

Definition new_buffer (size : float) (usage : Z) : Buffer :=
  {| buf_size := size; buf_usage := usage; buf_data := ∅ |}.

(** The calls up to and including the creation of the bind group. *)
Definition setup_events (w : World) (a : Adapter) (dim : float) : list Event :=
  [ERequestDevice (requested a);
   ECreateBuffer 0 (dim * 4)%float storage_dst;
   ECreateBuffer 1 ((dim * dim / 8) * 4)%float storage_dst;
   ECreateBuffer 2 (dim * 4)%float storage_src;
   ECreateBuffer 3 16%float uniform_dst;
   EWriteBuffer 3 0 (Uint32Array [dim]);
   EWriteBuffer 3 4 (Float32Array [1e-5%float]);
   EWriteBuffer 3 8 (Float32Array [1.0%float]);
   ECreateBindGroup 4 (getBindGroupLayout (pipeline_of_world w) 0)
     [(0%Z, 0); (1%Z, 1); (2%Z, 2); (3%Z, 3)]].

Definition warmup_events (w : World) (dim : float) : list Event :=
  [ESubmit [pass_buffer (pipeline_of_world w) 4 dim 5]; EWorkDone].

Definition measured_buffers (w : World) (dim : float) (n : nat) : list CommandBuffer :=
  map (pass_buffer (pipeline_of_world w) 4 dim) (seq 6 n).

Definition measured_events (w : World) (dim : float) (n : nat) : list Event :=
  map (fun cb => ESubmit [cb]) (measured_buffers w dim n).

Definition computed_metrics (start end_ dim : float) (n : nat) : Metrics :=
  let avgLatency := ((end_ - start) / Number.of_nat n)%float in
  {| latency := avgLatency;
     tflops := (((2 * Number.Math_pow dim 2) / (avgLatency / 1000)) / 1e12)%float |}.

Definition final_buffers (dim : float) : gmap nat Buffer :=
  alter (fun b => write_buffer b 8 (Float32Array [1.0%float])) 3
    (alter (fun b => write_buffer b 4 (Float32Array [1e-5%float])) 3
      (alter (fun b => write_buffer b 0 (Uint32Array [dim])) 3
        (<[3 := new_buffer 16%float uniform_dst]>
          (<[2 := new_buffer (dim * 4)%float storage_src]>
            (<[1 := new_buffer ((dim * dim / 8) * 4)%float storage_dst]>
              (<[0 := new_buffer (dim * 4)%float storage_dst]> ∅)))))).

Definition final_state (w : World) (a : Adapter) (dim : float) (n : nat) : State :=
  let m := computed_metrics (clock w 0) (clock w 1) dim n in
  {| next_handle := 6 + n;
     buffers := final_buffers dim;
     clock_reads := 2;
     trace := setup_events w a dim
              ++ warmup_events w dim
              ++ [ENow (clock w 0)]
              ++ (measured_events w dim n ++ [EWorkDone])
              ++ [ENow (clock w 1)]
              ++ [ELog (latency m) (tflops m)] |}.

(** The submissions the queue has not yet been seen to complete, after a
    sequence of calls: [submit] adds to them, a completed
    [onSubmittedWorkDone] wait leaves none. *)
Fixpoint in_flight_from (pending : list CommandBuffer) (tr : list Event)
    : list CommandBuffer :=
  match tr with
  | [] => pending
  | ESubmit cbs :: tr' => in_flight_from (pending ++ cbs) tr'
  | EWorkDone :: tr' => in_flight_from [] tr'
  | _ :: tr' => in_flight_from pending tr'
  end.

Definition in_flight (tr : list Event) : list CommandBuffer := in_flight_from [] tr.

Definition submitted (tr : list Event) : list CommandBuffer :=
  flat_map (fun e => match e with ESubmit cbs => cbs | _ => [] end) tr.

Definition timestamps (tr : list Event) : list float :=
  flat_map (fun e => match e with ENow t => [t] | _ => [] end) tr.

Definition waits (tr : list Event) : nat :=
  length (List.filter (fun e => match e with EWorkDone => true | _ => false end) tr).

Definition created_buffers (tr : list Event) : list (nat * float * Z) :=
  flat_map (fun e => match e with
                     | ECreateBuffer h size usage => [(h, size, usage)]
                     | _ => []
                     end) tr.

Definition buffer_writes (tr : list Event) : list (nat * Z * list Z) :=
  flat_map (fun e => match e with
                     | EWriteBuffer h offset bytes => [(h, offset, bytes)]
                     | _ => []
                     end) tr.

Definition bind_groups (tr : list Event) : list (nat * BindGroupLayout * list (Z * nat)) :=
  flat_map (fun e => match e with
                     | ECreateBindGroup h layout entries => [(h, layout, entries)]
                     | _ => []
                     end) tr.

Definition device_requests (tr : list Event) : list (list string) :=
  flat_map (fun e => match e with
                     | ERequestDevice required => [required]
                     | _ => []
                     end) tr.

Definition dispatched (cb : CommandBuffer) : list float :=
  flat_map (fun c => match c with DispatchWorkgroups x => [x] | _ => [] end)
           (enc_commands cb).

(** Writes applied to a buffer one after the other. *)
Definition write_all (b : Buffer) (ws : list (Z * list Z)) : Buffer :=
  foldl (fun b w => write_buffer b w.1 w.2) b ws.

(** The three parameter uploads of the program. *)
Definition param_writes (dim : float) : list (Z * list Z) :=
  [(0%Z, Uint32Array [dim]);
   (4%Z, Float32Array [1e-5%float]);
   (8%Z, Float32Array [1.0%float])].

Definition param_block (dim : float) : list Z :=
  le_bytes (Number.ToUint32 dim)
  ++ le_bytes (Number.float32_bits 1e-5%float)
  ++ le_bytes (Number.float32_bits 1.0%float)
  ++ [0; 0; 0; 0]%Z.

(** ** Example environments *)

Definition full_layout : Pipeline := {| layouts := [[0; 1; 2; 3]%Z] |}.

(** An adapter without the timestamp feature, a four-slot pipeline, and a
    clock that reads 1000 and then 1250. *)
Definition world_250 : World :=
  {| adapter := Some {| features := ∅ |};
     pipeline_of_world := full_layout;
     clock := fun k => match k with O => 1000%float | _ => 1250%float end |}.

(** An adapter with the timestamp feature. *)
Definition world_timestamps : World :=
  {| adapter := Some {| features := {["timestamp-query"]} |};
     pipeline_of_world := full_layout;
     clock := fun k => match k with O => 1000%float | _ => 1250%float end |}.

(** A clock too coarse to see the run: both reads give 1000. *)
Definition world_coarse : World :=
  {| adapter := Some {| features := ∅ |};
     pipeline_of_world := full_layout;
     clock := fun _ => 1000%float |}.

(** A pipeline that declares three binding slots. *)
Definition world_three_slots : World :=
  {| adapter := Some {| features := ∅ |};
     pipeline_of_world := {| layouts := [[0; 1; 2]%Z] |};
     clock := fun k => match k with O => 1000%float | _ => 1250%float end |}.

(** The byte offsets a write touches. *)
Definition addresses (w : Z * list Z) : list Z :=
  map (fun i => (w.1 + Z.of_nat i)%Z) (seq 0 (length w.2)).

(** Four bytes read back as a little-endian unsigned integer. *)
Definition le_word (bytes : list Z) : Z :=
  foldr (fun b acc => (b + 256 * acc)%Z) 0%Z bytes.

(** What the run printed on the console. *)
Definition logged (tr : list Event) : list (float * float) :=
  flat_map (fun e => match e with
                     | ELog avgLatency tflops => [(avgLatency, tflops)]
                     | _ => []
                     end) tr.

(** The calls of a run that starts when [h] handles are taken and the
    clock has been read [c] times. *)
Definition calls_from (w : World) (a : Adapter) (dim : float) (n h c : nat) : list Event :=
  let m := computed_metrics (clock w c) (clock w (S c)) dim n in
  [ERequestDevice (requested a);
   ECreateBuffer h (dim * 4)%float storage_dst;
   ECreateBuffer (1 + h) ((dim * dim / 8) * 4)%float storage_dst;
   ECreateBuffer (2 + h) (dim * 4)%float storage_src;
   ECreateBuffer (3 + h) 16%float uniform_dst;
   EWriteBuffer (3 + h) 0 (Uint32Array [dim]);
   EWriteBuffer (3 + h) 4 (Float32Array [1e-5%float]);
   EWriteBuffer (3 + h) 8 (Float32Array [1.0%float]);
   ECreateBindGroup (4 + h) (getBindGroupLayout (pipeline_of_world w) 0)
     [(0%Z, h); (1%Z, 1 + h); (2%Z, 2 + h); (3%Z, 3 + h)];
   ESubmit [pass_buffer (pipeline_of_world w) (4 + h) dim (5 + h)];
   EWorkDone;
   ENow (clock w c)]
  ++ map (fun cb => ESubmit [cb])
         (map (pass_buffer (pipeline_of_world w) (4 + h) dim) (seq (6 + h) n))
  ++ [EWorkDone; ENow (clock w (S c)); ELog (latency m) (tflops m)].

Definition buffers_from (dim : float) (h : nat) (bs : gmap nat Buffer) : gmap nat Buffer :=
  alter (fun b => write_buffer b 8 (Float32Array [1.0%float])) (3 + h)
    (alter (fun b => write_buffer b 4 (Float32Array [1e-5%float])) (3 + h)
      (alter (fun b => write_buffer b 0 (Uint32Array [dim])) (3 + h)
        (<[3 + h := new_buffer 16%float uniform_dst]>
          (<[2 + h := new_buffer (dim * 4)%float storage_src]>
            (<[1 + h := new_buffer ((dim * dim / 8) * 4)%float storage_dst]>
              (<[h := new_buffer (dim * 4)%float storage_dst]> bs)))))).

(** * Running the program *)

Lemma bind_run {A B} (m : M A) (k : A -> M B) (s : State) :
  bind m k s = match m s with
               | Return a s' => k a s'
               | Throw e s' => Throw e s'
               end.
Proof. reflexivity. Qed.

(** A loop whose body always returns runs its state change [count] times. *)
Lemma for_from_run (body : nat -> M unit) (f : State -> State) :
  (forall i s, body i s = Return tt (f s)) ->
  forall count i s, for_from i count body s = Return tt (Nat.iter count f s).
Proof.
  intros Hbody count. induction count as [|count IH]; intros i s.
  - reflexivity.
  - cbn [for_from]. rewrite bind_run, Hbody, IH.
    f_equal. symmetry. apply Nat.iter_succ_r.
Qed.

Lemma measure_steps p bg dim n s :
  Nat.iter n (measure_step p bg dim) s =
  {| next_handle := next_handle s + n;
     buffers := buffers s;
     clock_reads := clock_reads s;
     trace := trace s ++ map (fun cb => ESubmit [cb])
                             (map (pass_buffer p bg dim) (seq (next_handle s) n)) |}.
Proof.
  revert s. induction n as [|n IH]; intros s.
  - destruct s as [h bs c tr]. cbn. by rewrite Nat.add_0_r, app_nil_r.
  - rewrite Nat.iter_succ_r, IH. cbn.
    by rewrite Nat.add_succ_r, <- app_assoc.
Qed.

Lemma requested_supported a : forallb (has (features a)) (requested a) = true.
Proof.
  unfold requested. destruct (has (features a) "timestamp-query") eqn:Hf;
    cbn [forallb]; by rewrite ?Hf.
Qed.

(** The whole run, for any adapter: the program returns, and this is the
    state it leaves. *)
Lemma benchmark_run w a dim n :
  adapter w = Some a ->
  benchmark w dim n init
  = Return (computed_metrics (clock w 0) (clock w 1) dim n) (final_state w a dim n).
Proof.
  intros Ha. unfold benchmark, requestAdapter.
  rewrite bind_run. unfold ret at 1. rewrite Ha.
  fold (requested a). rewrite bind_run. unfold requestDevice at 1.
  rewrite requested_supported.
  unfold for_lt.
  cbn -[for_from Number.of_nat Uint32Array Float32Array Z.lor Number.Math_pow
        requested].
  rewrite bind_run.
  rewrite (for_from_run _ (measure_step (pipeline_of_world w) 4 dim))
    by reflexivity.
  rewrite measure_steps.
  cbn -[Number.of_nat Uint32Array Float32Array Z.lor Number.Math_pow requested].
  unfold final_state, computed_metrics, setup_events, warmup_events,
    measured_events, measured_buffers.
  cbn -[Number.of_nat Uint32Array Float32Array Z.lor Number.Math_pow requested].
  unfold ret, log, tick. cbn [trace next_handle buffers clock_reads app].
  rewrite <- !app_assoc. reflexivity.
Qed.

(** Without an adapter the program throws before any call is made. *)
Lemma benchmark_no_adapter w dim n :
  adapter w = None ->
  benchmark w dim n init = Throw (Error "WebGPU not supported") init.
Proof.
  intros Ha. unfold benchmark, requestAdapter.
  rewrite bind_run. unfold ret at 1. by rewrite Ha.
Qed.

(** ** Reading a trace *)

Lemma in_flight_from_app pending tr1 tr2 :
  in_flight_from pending (tr1 ++ tr2)
  = in_flight_from (in_flight_from pending tr1) tr2.
Proof.
  revert pending. induction tr1 as [|e tr1 IH]; intros pending; [reflexivity|].
  destruct e; cbn [app in_flight_from]; apply IH.
Qed.

Lemma in_flight_from_submits pending cbs :
  in_flight_from pending (map (fun cb => ESubmit [cb]) cbs) = pending ++ cbs.
Proof.
  revert pending. induction cbs as [|cb cbs IH]; intros pending; cbn.
  - by rewrite app_nil_r.
  - by rewrite IH, <- app_assoc.
Qed.

Lemma submitted_app tr1 tr2 : submitted (tr1 ++ tr2) = submitted tr1 ++ submitted tr2.
Proof. apply flat_map_app. Qed.

Lemma submitted_submits cbs : submitted (map (fun cb => ESubmit [cb]) cbs) = cbs.
Proof. induction cbs as [|cb cbs IH]; cbn; [reflexivity|]. by f_equal. Qed.

Lemma timestamps_app tr1 tr2 : timestamps (tr1 ++ tr2) = timestamps tr1 ++ timestamps tr2.
Proof. apply flat_map_app. Qed.

Lemma timestamps_submits cbs : timestamps (map (fun cb => ESubmit [cb]) cbs) = [].
Proof. induction cbs as [|cb cbs IH]; cbn; [reflexivity|]. exact IH. Qed.

Lemma waits_submits cbs : waits (map (fun cb => ESubmit [cb]) cbs) = 0.
Proof. unfold waits. induction cbs as [|cb cbs IH]; cbn; [reflexivity|]. exact IH. Qed.

Lemma created_buffers_app tr1 tr2 :
  created_buffers (tr1 ++ tr2) = created_buffers tr1 ++ created_buffers tr2.
Proof. apply flat_map_app. Qed.

Lemma created_buffers_submits cbs :
  created_buffers (map (fun cb => ESubmit [cb]) cbs) = [].
Proof. induction cbs as [|cb cbs IH]; cbn; [reflexivity|]. exact IH. Qed.

Lemma buffer_writes_app tr1 tr2 :
  buffer_writes (tr1 ++ tr2) = buffer_writes tr1 ++ buffer_writes tr2.
Proof. apply flat_map_app. Qed.

Lemma buffer_writes_submits cbs :
  buffer_writes (map (fun cb => ESubmit [cb]) cbs) = [].
Proof. induction cbs as [|cb cbs IH]; cbn; [reflexivity|]. exact IH. Qed.

Lemma bind_groups_app tr1 tr2 :
  bind_groups (tr1 ++ tr2) = bind_groups tr1 ++ bind_groups tr2.
Proof. apply flat_map_app. Qed.

Lemma bind_groups_submits cbs :
  bind_groups (map (fun cb => ESubmit [cb]) cbs) = [].
Proof. induction cbs as [|cb cbs IH]; cbn; [reflexivity|]. exact IH. Qed.

Lemma device_requests_app tr1 tr2 :
  device_requests (tr1 ++ tr2) = device_requests tr1 ++ device_requests tr2.
Proof. apply flat_map_app. Qed.

Lemma device_requests_submits cbs :
  device_requests (map (fun cb => ESubmit [cb]) cbs) = [].
Proof. induction cbs as [|cb cbs IH]; cbn; [reflexivity|]. exact IH. Qed.

(** The measured command buffers: one per iteration, each from an encoder
    of its own. *)
Lemma measured_buffers_length w dim n : length (measured_buffers w dim n) = n.
Proof. unfold measured_buffers. by rewrite length_map, length_seq. Qed.

Lemma measured_buffers_handles w dim n :
  map enc_handle (measured_buffers w dim n) = seq 6 n.
Proof.
  unfold measured_buffers. rewrite map_map. cbn. apply map_id.
Qed.

Lemma measured_buffers_commands w dim n :
  Forall (fun cb => enc_commands cb = pass_commands (pipeline_of_world w) 4 dim)
         (measured_buffers w dim n).
Proof.
  unfold measured_buffers. apply Forall_map, Forall_forall. reflexivity.
Qed.

(** ** Buffer contents *)

Lemma store_bytes_lookup bytes offset mem k :
  store_bytes offset bytes mem !! k
  = if decide (offset <= k < offset + Z.of_nat (length bytes))%Z
    then bytes !! Z.to_nat (k - offset)
    else mem !! k.
Proof.
  revert offset mem. induction bytes as [|b bs IH]; intros offset mem;
    cbn [store_bytes length].
  - case_decide; [lia|done].
  - rewrite IH. case_decide as Hin; case_decide as Hout; try lia.
    + replace (Z.to_nat (k - offset)) with (S (Z.to_nat (k - (offset + 1))))
        by lia.
      reflexivity.
    + assert (k = offset) as -> by lia.
      by rewrite lookup_insert_eq, Z.sub_diag.
    + by rewrite lookup_insert_ne by lia.
Qed.

Lemma elem_of_addresses w k :
  k ∈ addresses w <-> (w.1 <= k < w.1 + Z.of_nat (length w.2))%Z.
Proof.
  unfold addresses. rewrite list_elem_of_fmap. split.
  - intros (i & -> & Hi). apply list_elem_of_In, in_seq in Hi. lia.
  - intros Hk. exists (Z.to_nat (k - w.1)). split; [lia|].
    apply list_elem_of_In, in_seq. lia.
Qed.

(** Writes to byte ranges that do not overlap commute. *)
Lemma store_bytes_commute x y mem :
  (forall k, k ∈ addresses x -> k ∉ addresses y) ->
  store_bytes x.1 x.2 (store_bytes y.1 y.2 mem)
  = store_bytes y.1 y.2 (store_bytes x.1 x.2 mem).
Proof.
  intros Hdisj. apply map_eq. intros k. rewrite !store_bytes_lookup.
  specialize (Hdisj k). rewrite !elem_of_addresses in Hdisj.
  repeat case_decide; try done. exfalso. by apply Hdisj.
Qed.

Lemma valid_write_write_buffer b w w' :
  valid_write (write_buffer b w.1 w.2) w'.1 w'.2 = valid_write b w'.1 w'.2.
Proof. unfold write_buffer. by destruct (valid_write b w.1 w.2). Qed.

Lemma write_buffer_commute b x y :
  (forall k, k ∈ addresses x -> k ∉ addresses y) ->
  write_buffer (write_buffer b y.1 y.2) x.1 x.2
  = write_buffer (write_buffer b x.1 x.2) y.1 y.2.
Proof.
  intros Hdisj.
  unfold write_buffer at 1 3.
  rewrite (valid_write_write_buffer b y x), (valid_write_write_buffer b x y).
  unfold write_buffer.
  destruct (valid_write b x.1 x.2), (valid_write b y.1 y.2); cbn; try done.
  f_equal. by apply store_bytes_commute.
Qed.

(** Any two orders of the same writes leave the same buffer, provided no
    byte is written twice. *)
Lemma write_all_permutation ws ws' :
  Permutation ws ws' ->
  NoDup (flat_map addresses ws) ->
  forall b, write_all b ws = write_all b ws'.
Proof.
  induction 1 as [|x l l' Hperm IH|x y l|l l' l'' Hperm1 IH1 Hperm2 IH2];
    intros Hnodup b.
  - reflexivity.
  - cbn in *. apply NoDup_app in Hnodup as (_ & _ & Hl). by apply IH.
  - cbn in *. f_equal.
    apply NoDup_app in Hnodup as (_ & Hdisj & _).
    apply write_buffer_commute. intros k Hk Hk'.
    apply (Hdisj k Hk'). apply elem_of_app. by left.
  - rewrite IH1 by done. apply IH2.
    apply NoDup_ListNoDup.
    eapply Permutation_NoDup; [|apply NoDup_ListNoDup; exact Hnodup].
    by apply Permutation_flat_map.
Qed.

(** Little-endian bytes read back give the word. *)
Lemma le_word_le_bytes z : (0 <= z < 2 ^ 32)%Z -> le_word (le_bytes z) = z.
Proof.
  intros Hz. unfold le_word, le_bytes. cbn [map foldr].
  change 255%Z with (Z.ones 8). rewrite !Z.land_ones, !Z.shiftr_div_pow2 by lia.
  change (2 ^ (8 * 0))%Z with 1%Z. change (2 ^ (8 * 1))%Z with 256%Z.
  change (2 ^ (8 * 2))%Z with 65536%Z. change (2 ^ (8 * 3))%Z with 16777216%Z.
  change (2 ^ 8)%Z with 256%Z. change (2 ^ 32)%Z with 4294967296%Z in Hz.
  Z.div_mod_to_equations. lia.
Qed.

Lemma ToUint32_range x : (0 <= Number.ToUint32 x < 2 ^ 32)%Z.
Proof.
  unfold Number.ToUint32. destruct (Number.truncate x).
  - apply Z.mod_pos_bound. lia.
  - lia.
Qed.

(** ** More on traces and buffers *)

Lemma waits_app tr1 tr2 : waits (tr1 ++ tr2) = waits tr1 + waits tr2.
Proof. unfold waits. by rewrite List.filter_app, length_app. Qed.

Lemma logged_app tr1 tr2 : logged (tr1 ++ tr2) = logged tr1 ++ logged tr2.
Proof. apply flat_map_app. Qed.

Lemma logged_submits cbs : logged (map (fun cb => ESubmit [cb]) cbs) = [].
Proof. induction cbs as [|cb cbs IH]; cbn; [reflexivity|]. exact IH. Qed.

(** A buffer nothing was written to reads as zeros. *)
Lemma read_bytes_unwritten b offset len :
  buf_data b = ∅ -> read_bytes b offset len = repeat 0%Z len.
Proof.
  intros Hdata. unfold read_bytes. rewrite Hdata.
  generalize 0 at 1. induction len as [|len IH]; intros start; cbn.
  - reflexivity.
  - by rewrite lookup_empty, IH.
Qed.

(** The trace a run with an adapter leaves. *)
Lemma final_trace w a dim n :
  trace (final_state w a dim n)
  = setup_events w a dim
    ++ warmup_events w dim
    ++ [ENow (clock w 0)]
    ++ (measured_events w dim n ++ [EWorkDone])
    ++ [ENow (clock w 1)]
    ++ [ELog (latency (computed_metrics (clock w 0) (clock w 1) dim n))
             (tflops (computed_metrics (clock w 0) (clock w 1) dim n))].
Proof. reflexivity. Qed.

(** The whole run from any state. *)
Lemma benchmark_run_from w a dim n s0 :
  adapter w = Some a ->
  benchmark w dim n s0
  = Return (computed_metrics (clock w (clock_reads s0))
                             (clock w (S (clock_reads s0))) dim n)
           {| next_handle := 6 + next_handle s0 + n;
              buffers := buffers_from dim (next_handle s0) (buffers s0);
              clock_reads := S (S (clock_reads s0));
              trace := trace s0
                       ++ calls_from w a dim n (next_handle s0) (clock_reads s0) |}.
Proof.
  intros Ha. destruct s0 as [h bs c tr].
  unfold benchmark, requestAdapter.
  rewrite bind_run. unfold ret at 1. rewrite Ha.
  fold (requested a). rewrite bind_run. unfold requestDevice at 1.
  rewrite requested_supported.
  unfold for_lt.
  cbn -[for_from Number.of_nat Uint32Array Float32Array Z.lor Number.Math_pow
        requested].
  rewrite bind_run.
  rewrite (for_from_run _ (measure_step (pipeline_of_world w) (S (S (S (S h)))) dim))
    by reflexivity.
  rewrite measure_steps.
  cbn -[Number.of_nat Uint32Array Float32Array Z.lor Number.Math_pow requested].
  unfold calls_from, computed_metrics, buffers_from.
  cbn -[Number.of_nat Uint32Array Float32Array Z.lor Number.Math_pow requested].
  unfold ret, log, tick. cbn [trace next_handle buffers clock_reads app].
  rewrite <- !app_assoc. reflexivity.
Qed.

(** ** The model on concrete inputs *)

Example of_nat_100 : Number.of_nat 100 = 100%float.
Proof. reflexivity. Qed.

Example ToUint32_4096 : Number.ToUint32 4096 = 4096%Z.
Proof. reflexivity. Qed.

Example ToUint32_negative : Number.ToUint32 (-1) = 4294967295%Z.
Proof. reflexivity. Qed.

Example ToUint32_fraction : Number.ToUint32 4096.75 = 4096%Z.
Proof. reflexivity. Qed.

Example Uint32Array_4096 : Uint32Array [4096%float] = [0; 16; 0; 0]%Z.
Proof. reflexivity. Qed.

Example float32_epsilon : Number.float32_bits 1e-5 = 0x3727C5AC%Z.
Proof. reflexivity. Qed.

Example float32_one : Number.float32_bits 1 = 0x3F800000%Z.
Proof. reflexivity. Qed.

Example float32_minus_two : Number.float32_bits (-2) = 0xC0000000%Z.
Proof. reflexivity. Qed.

Example Float32Array_epsilon : Float32Array [1e-5%float] = [0xAC; 0xC5; 0x27; 0x37]%Z.
Proof. reflexivity. Qed.

(** A whole run with two measured iterations. *)
Example run_two_iterations :
  benchmark world_250 4096 2 init
  = Return
      {| latency := 125; tflops := 0.00026843545600000002 |}
      {| next_handle := 8;
         buffers := final_buffers 4096;
         clock_reads := 2;
         trace :=
           [ERequestDevice [];
            ECreateBuffer 0 16384 136;
            ECreateBuffer 1 8388608 136;
            ECreateBuffer 2 16384 132;
            ECreateBuffer 3 16 72;
            EWriteBuffer 3 0 [0; 16; 0; 0]%Z;
            EWriteBuffer 3 4 [172; 197; 39; 55]%Z;
            EWriteBuffer 3 8 [0; 0; 128; 63]%Z;
            ECreateBindGroup 4 [0; 1; 2; 3]%Z [(0%Z, 0); (1%Z, 1); (2%Z, 2); (3%Z, 3)];
            ESubmit [pass_buffer full_layout 4 4096 5];
            EWorkDone;
            ENow 1000;
            ESubmit [pass_buffer full_layout 4 4096 6];
            ESubmit [pass_buffer full_layout 4 4096 7];
            EWorkDone;
            ENow 1250;
            ELog 125 0.00026843545600000002] |}.
Proof. reflexivity. Qed.

Example params_block_4096 :
  (fun b => read_bytes b 0 16) <$> final_buffers 4096 !! 3
  = Some [0; 16; 0; 0; 172; 197; 39; 55; 0; 0; 128; 63; 0; 0; 0; 0]%Z.
Proof. reflexivity. Qed.

Example request_with_timestamps :
  device_requests (trace (final_state world_timestamps
                            {| features := {["timestamp-query"]} |} 4096 100))
  = [["timestamp-query"]].
Proof. reflexivity. Qed.

(** An invalid write (here past the end of the buffer) is dropped. *)
Example write_out_of_range :
  write_buffer (new_buffer 16 uniform_dst) 16 [1; 2; 3; 4]%Z
  = new_buffer 16 uniform_dst.
Proof. reflexivity. Qed.

(** A request for a feature the adapter lacks is rejected. *)
Example unsupported_feature_rejected :
  requestDevice {| features := ∅ |} ["timestamp-query"] init
  = Throw (TypeError "requiredFeatures")
          (log (ERequestDevice ["timestamp-query"]) init).
Proof. reflexivity. Qed.

(** * The metrics *)

(** C2: for every positive elapsed time, iteration count and dimension,
    the run returns averageLatencyMs = elapsedMs / iterations and
    throughputTFLOPS = (opsPerPass / (averageLatencyMs / 1000)) / 1e12,
    where opsPerPass = 2 * dim^2 and elapsedMs is the difference of the two
    clock reads. *)
Theorem metrics_formula (w : World) (a : Adapter) (dim : float) (iterations : nat) :
  adapter w = Some a ->
  (0 <? clock w 1 - clock w 0)%float = true ->
  0 < iterations ->
  (0 <? dim)%float = true ->
  exists m s elapsedMs opsPerPass,
    benchmark w dim iterations init = Return m s /\
    elapsedMs = (clock w 1 - clock w 0)%float /\
    opsPerPass = (2 * (dim * dim))%float /\
    latency m = (elapsedMs / Number.of_nat iterations)%float /\
    tflops m = ((opsPerPass / (latency m / 1000)) / 1e12)%float.
Proof.
  intros Ha _ _ _. eexists _, _, _, _.
  split; [exact (benchmark_run w a dim iterations Ha)|].
  repeat split.
Qed.

Lemma metrics_formula_witness :
  exists m s elapsedMs opsPerPass,
    benchmark world_250 4096 100 init = Return m s /\
    elapsedMs = (clock world_250 1 - clock world_250 0)%float /\
    opsPerPass = (2 * (4096 * 4096))%float /\
    latency m = (elapsedMs / Number.of_nat 100)%float /\
    tflops m = ((opsPerPass / (latency m / 1000)) / 1e12)%float.
Proof.
  apply (metrics_formula world_250 {| features := ∅ |} 4096 100).
  - reflexivity.
  - reflexivity.
  - apply Nat.lt_0_succ.
  - reflexivity.
Defined.

(** C3, as the program computes it: with dim = 4096, 100 iterations and an
    elapsed time of 250 ms the run returns averageLatencyMs = 2.5 and
    throughputTFLOPS = 0.0134217728 (about 0.01342, that is 13.42 GFLOPS),
    with opsPerPass = 2 * 4096^2 = 33,554,432. *)
Theorem example_250ms (w : World) (a : Adapter) :
  adapter w = Some a ->
  (clock w 1 - clock w 0)%float = 250%float ->
  exists s,
    runBenchmark w init
    = Return {| latency := 2.5; tflops := 0.0134217728 |} s /\
    (2 * Number.Math_pow 4096 2)%float = 33554432%float /\
    Number.approx 0.0134217728 0.01342 0.000005 = true.
Proof.
  intros Ha Hel. eexists. split; [|split; reflexivity].
  unfold runBenchmark. rewrite (benchmark_run w a _ _ Ha).
  unfold computed_metrics. rewrite Hel. reflexivity.
Qed.

Lemma example_250ms_witness :
  exists s,
    runBenchmark world_250 init
    = Return {| latency := 2.5; tflops := 0.0134217728 |} s /\
    (2 * Number.Math_pow 4096 2)%float = 33554432%float /\
    Number.approx 0.0134217728 0.01342 0.000005 = true.
Proof.
  apply (example_250ms world_250 {| features := ∅ |}); reflexivity.
Defined.

(** C3 as stated fails: at dim = 4096, 100 iterations and 250 ms elapsed
    the throughput the run returns is not within 0.005 of 13.42 (it is
    below 1). *)
Lemma example_250ms_not_13_42 :
  exists m s,
    runBenchmark world_250 init = Return m s /\
    (clock world_250 1 - clock world_250 0)%float = 250%float /\
    latency m = 2.5%float /\
    Number.approx (tflops m) 13.42 0.005 = false /\
    (tflops m <? 1)%float = true.
Proof.
  eexists _, _. split; [exact (benchmark_run world_250 _ _ _ eq_refl)|].
  repeat split.
Qed.

(** C4, as the program behaves: there is no guard. Whatever the dimension,
    the iteration count and the clock, a run with an adapter returns a
    metrics record and raises nothing; with zero elapsed time (dim 4096,
    100 iterations) the record is averageLatencyMs = 0 and
    throughputTFLOPS = +Infinity; with zero iterations and 250 ms elapsed
    it is averageLatencyMs = +Infinity and throughputTFLOPS = 0; with both
    zero both fields are NaN. *)
Theorem metrics_unguarded (w : World) (a : Adapter) :
  adapter w = Some a ->
  (forall dim iterations, exists m s, benchmark w dim iterations init = Return m s) /\
  ((clock w 1 - clock w 0)%float = 0%float ->
   exists s, runBenchmark w init = Return {| latency := 0; tflops := infinity |} s) /\
  ((clock w 1 - clock w 0)%float = 250%float ->
   exists s, benchmark w 4096 0 init
             = Return {| latency := infinity; tflops := 0 |} s) /\
  ((clock w 1 - clock w 0)%float = 0%float ->
   exists s, benchmark w 4096 0 init = Return {| latency := nan; tflops := nan |} s).
Proof.
  intros Ha. split; [|repeat split].
  - intros dim n. eexists _, _. exact (benchmark_run w a dim n Ha).
  - intros Hel. eexists. unfold runBenchmark. rewrite (benchmark_run w a _ _ Ha).
    unfold computed_metrics. rewrite Hel. reflexivity.
  - intros Hel. eexists. rewrite (benchmark_run w a _ _ Ha).
    unfold computed_metrics. rewrite Hel. reflexivity.
  - intros Hel. eexists. rewrite (benchmark_run w a _ _ Ha).
    unfold computed_metrics. rewrite Hel. reflexivity.
Qed.

Lemma metrics_unguarded_witness :
  (forall dim iterations,
     exists m s, benchmark world_coarse dim iterations init = Return m s) /\
  (exists s, runBenchmark world_coarse init
             = Return {| latency := 0; tflops := infinity |} s) /\
  (exists s, benchmark world_250 4096 0 init
             = Return {| latency := infinity; tflops := 0 |} s) /\
  (exists s, benchmark world_coarse 4096 0 init
             = Return {| latency := nan; tflops := nan |} s).
Proof.
  pose proof (metrics_unguarded world_coarse {| features := ∅ |} eq_refl)
    as (Hany & Hzero & _ & Hnan).
  pose proof (metrics_unguarded world_250 {| features := ∅ |} eq_refl)
    as (_ & _ & Hiter & _).
  split; [exact Hany|].
  split; [exact (Hzero eq_refl)|].
  split; [exact (Hiter eq_refl)|exact (Hnan eq_refl)].
Defined.

(** C4 as stated fails: with a clock that reads the same value twice the
    elapsed time is zero, and the run raises no error but returns an
    infinite throughput. *)
Lemma zero_elapsed_returns_infinity :
  exists s,
    (clock world_coarse 1 - clock world_coarse 0)%float = 0%float /\
    runBenchmark world_coarse init
    = Return {| latency := 0; tflops := infinity |} s.
Proof.
  eexists. split; [reflexivity|].
  unfold runBenchmark. rewrite (benchmark_run world_coarse _ _ _ eq_refl).
  reflexivity.
Qed.

(** C10: [runBenchmark] takes nothing but its environment; it runs the
    benchmark with dim = 4096 and iterations = 100, so every run that returns
    divides the elapsed time by the positive constant 100, dispatches 4096
    workgroups in each of its 1 + 100 submissions, and no run divides by a
    zero iteration count. *)
Theorem constants_fixed (w : World) (a : Adapter) :
  adapter w = Some a ->
  runBenchmark w = benchmark w 4096 100 /\
  exists m s,
    runBenchmark w init = Return m s /\
    latency m = ((clock w 1 - clock w 0) / 100)%float /\
    Number.of_nat 100 = 100%float /\
    (0 <? 100)%float = true /\
    flat_map dispatched (submitted (trace s)) = repeat 4096%float (1 + 100).
Proof.
  intros Ha. split; [reflexivity|].
  eexists _, _. split; [exact (benchmark_run w a _ _ Ha)|].
  repeat split.
Qed.

Lemma constants_fixed_witness :
  runBenchmark world_250 = benchmark world_250 4096 100 /\
  exists m s,
    runBenchmark world_250 init = Return m s /\
    latency m = ((clock world_250 1 - clock world_250 0) / 100)%float /\
    Number.of_nat 100 = 100%float /\
    (0 <? 100)%float = true /\
    flat_map dispatched (submitted (trace s)) = repeat 4096%float (1 + 100).
Proof.
  apply (constants_fixed world_250 {| features := ∅ |}). reflexivity.
Defined.

(** * The execution protocol *)

(** C1: in every run that reaches the measurement, the calls split as
    before ++ [start read] ++ during ++ [end read] ++ after, with no other
    clock read; the elapsed time divided is end - start; before the start
    read exactly the warm-up was submitted, a completed wait is the last
    call, and nothing is in flight; all the measured submissions and a
    completed wait lie between the two reads, nothing is in flight at the
    end read, and nothing is submitted after it. *)
Theorem timestamps_after_drains (w : World) (a : Adapter) (dim : float) (iterations : nat) :
  adapter w = Some a ->
  exists m s before during after start end_ warmUp,
    benchmark w dim iterations init = Return m s /\
    trace s = before ++ [ENow start] ++ during ++ [ENow end_] ++ after /\
    timestamps before = [] /\ timestamps during = [] /\ timestamps after = [] /\
    latency m = ((end_ - start) / Number.of_nat iterations)%float /\
    submitted before = [warmUp] /\
    dispatched warmUp = [dim] /\
    (exists before', before = before' ++ [ESubmit [warmUp]; EWorkDone]) /\
    in_flight before = [] /\
    length (submitted during) = iterations /\
    ~ In warmUp (submitted during) /\
    (exists during', during = during' ++ [EWorkDone]) /\
    in_flight (before ++ [ENow start] ++ during) = [] /\
    submitted after = [].
Proof.
  intros Ha.
  exists (computed_metrics (clock w 0) (clock w 1) dim iterations),
         (final_state w a dim iterations),
         (setup_events w a dim ++ warmup_events w dim),
         (measured_events w dim iterations ++ [EWorkDone]),
         [ELog (latency (computed_metrics (clock w 0) (clock w 1) dim iterations))
               (tflops (computed_metrics (clock w 0) (clock w 1) dim iterations))],
         (clock w 0), (clock w 1),
         (pass_buffer (pipeline_of_world w) 4 dim 5).
  split; [exact (benchmark_run w a dim iterations Ha)|].
  split; [cbn [final_state trace]; by rewrite <- !app_assoc|].
  split; [reflexivity|].
  split; [unfold measured_events; by rewrite timestamps_app, timestamps_submits|].
  split; [reflexivity|].
  split; [reflexivity|].
  split; [reflexivity|].
  split; [reflexivity|].
  split; [by exists (setup_events w a dim)|].
  split; [reflexivity|].
  unfold measured_events.
  split; [by rewrite submitted_app, submitted_submits, app_nil_r,
            measured_buffers_length|].
  split.
  { rewrite submitted_app, submitted_submits, app_nil_r.
    intros Hin. apply (in_map enc_handle) in Hin.
    rewrite measured_buffers_handles in Hin. cbn in Hin.
    apply in_seq in Hin. lia. }
  split; [by eexists|].
  split; [|reflexivity].
  unfold in_flight. rewrite !app_assoc, in_flight_from_app. reflexivity.
Qed.

Lemma timestamps_after_drains_witness :
  exists m s before during after start end_ warmUp,
    benchmark world_250 4096 100 init = Return m s /\
    trace s = before ++ [ENow start] ++ during ++ [ENow end_] ++ after /\
    timestamps before = [] /\ timestamps during = [] /\ timestamps after = [] /\
    latency m = ((end_ - start) / Number.of_nat 100)%float /\
    submitted before = [warmUp] /\
    dispatched warmUp = [4096%float] /\
    (exists before', before = before' ++ [ESubmit [warmUp]; EWorkDone]) /\
    in_flight before = [] /\
    length (submitted during) = 100 /\
    ~ In warmUp (submitted during) /\
    (exists during', during = during' ++ [EWorkDone]) /\
    in_flight (before ++ [ENow start] ++ during) = [] /\
    submitted after = [].
Proof.
  apply (timestamps_after_drains world_250 {| features := ∅ |} 4096 100).
  reflexivity.
Defined.

(** C5: between the two clock reads the program makes exactly [iterations]
    submissions followed by one completed wait and nothing else; each
    submission is a single command buffer from an encoder of its own (the
    handles are pairwise different and none is the warm-up's) holding one
    compute pass that sets the pipeline, binds the one bind group the
    program created at index 0 and dispatches [dim] workgroups. *)
Theorem measuring_phase (w : World) (a : Adapter) (dim : float) (iterations : nat) :
  adapter w = Some a ->
  exists m s before after start end_ cbs bindGroup layout entries,
    benchmark w dim iterations init = Return m s /\
    trace s = before ++ [ENow start]
              ++ (map (fun cb => ESubmit [cb]) cbs ++ [EWorkDone])
              ++ [ENow end_] ++ after /\
    timestamps before = [] /\ timestamps after = [] /\
    length cbs = iterations /\
    NoDup (map enc_handle cbs) /\
    (forall cb warmUp, In cb cbs -> In warmUp (submitted before) ->
                       enc_handle cb <> enc_handle warmUp) /\
    bind_groups (trace s) = [(bindGroup, layout, entries)] /\
    Forall (fun cb => enc_commands cb
                      = [BeginComputePass; SetPipeline (pipeline_of_world w);
                         SetBindGroup 0 bindGroup; DispatchWorkgroups dim;
                         EndPass]) cbs /\
    waits (map (fun cb => ESubmit [cb]) cbs) = 0.
Proof.
  intros Ha.
  exists (computed_metrics (clock w 0) (clock w 1) dim iterations),
         (final_state w a dim iterations),
         (setup_events w a dim ++ warmup_events w dim),
         [ELog (latency (computed_metrics (clock w 0) (clock w 1) dim iterations))
               (tflops (computed_metrics (clock w 0) (clock w 1) dim iterations))],
         (clock w 0), (clock w 1),
         (measured_buffers w dim iterations),
         4, (getBindGroupLayout (pipeline_of_world w) 0),
         [(0%Z, 0); (1%Z, 1); (2%Z, 2); (3%Z, 3)].
  split; [exact (benchmark_run w a dim iterations Ha)|].
  split; [cbn [final_state trace]; by rewrite <- !app_assoc|].
  split; [reflexivity|].
  split; [reflexivity|].
  split; [apply measured_buffers_length|].
  split; [rewrite measured_buffers_handles; apply NoDup_ListNoDup, seq_NoDup|].
  split.
  { intros cb warmUp Hcb [<-|[]]. apply (in_map enc_handle) in Hcb.
    rewrite measured_buffers_handles in Hcb. apply in_seq in Hcb. cbn. lia. }
  split.
  { cbn [final_state trace]. unfold measured_events.
    rewrite !bind_groups_app, bind_groups_submits. reflexivity. }
  split; [apply measured_buffers_commands|apply waits_submits].
Qed.

Lemma measuring_phase_witness :
  exists m s before after start end_ cbs bindGroup layout entries,
    benchmark world_250 4096 100 init = Return m s /\
    trace s = before ++ [ENow start]
              ++ (map (fun cb => ESubmit [cb]) cbs ++ [EWorkDone])
              ++ [ENow end_] ++ after /\
    timestamps before = [] /\ timestamps after = [] /\
    length cbs = 100 /\
    NoDup (map enc_handle cbs) /\
    (forall cb warmUp, In cb cbs -> In warmUp (submitted before) ->
                       enc_handle cb <> enc_handle warmUp) /\
    bind_groups (trace s) = [(bindGroup, layout, entries)] /\
    Forall (fun cb => enc_commands cb
                      = [BeginComputePass; SetPipeline (pipeline_of_world world_250);
                         SetBindGroup 0 bindGroup; DispatchWorkgroups 4096;
                         EndPass]) cbs /\
    waits (map (fun cb => ESubmit [cb]) cbs) = 0.
Proof.
  apply (measuring_phase world_250 {| features := ∅ |} 4096 100).
  reflexivity.
Defined.

(** * Negotiation, allocation and binding *)

(** C8: the one device request of a run asks for the timestamp feature if
    and only if the adapter advertises it; when the adapter does not, the
    required features are empty; every feature asked for is one the adapter
    has, so the request is granted and the run goes on to return. *)
Theorem timestamp_feature_gated (w : World) (a : Adapter) (dim : float) (iterations : nat) :
  adapter w = Some a ->
  exists m s required,
    benchmark w dim iterations init = Return m s /\
    device_requests (trace s) = [required] /\
    ("timestamp-query" ∈ required <-> "timestamp-query" ∈ features a) /\
    ("timestamp-query" ∉ features a -> required = []) /\
    (forall f, f ∈ required -> f ∈ features a) /\
    (forall s0, exists device s1, requestDevice a required s0 = Return device s1).
Proof.
  intros Ha.
  exists (computed_metrics (clock w 0) (clock w 1) dim iterations),
         (final_state w a dim iterations), (requested a).
  split; [exact (benchmark_run w a dim iterations Ha)|].
  split.
  { cbn [final_state trace]. unfold measured_events.
    rewrite !device_requests_app, device_requests_submits. reflexivity. }
  unfold requested, has.
  destruct (bool_decide ("timestamp-query" ∈ features a)) eqn:Hf.
  - apply bool_decide_eq_true in Hf. repeat split.
    + done.
    + intros _. apply list_elem_of_singleton. reflexivity.
    + done.
    + intros f ->%list_elem_of_singleton. exact Hf.
    + intros s0. unfold requestDevice. cbn [forallb]. unfold has.
      rewrite bool_decide_eq_true_2 by exact Hf. cbn. by eexists _, _.
  - apply bool_decide_eq_false in Hf. repeat split.
    + intros []%elem_of_nil.
    + done.
    + intros f []%elem_of_nil.
    + intros s0. unfold requestDevice. cbn. by eexists _, _.
Qed.

Lemma timestamp_feature_gated_witness :
  exists m s required,
    benchmark world_timestamps 4096 100 init = Return m s /\
    device_requests (trace s) = [required] /\
    ("timestamp-query" ∈ required
     <-> "timestamp-query" ∈ features {| features := {["timestamp-query"]} |}) /\
    ("timestamp-query" ∉ features {| features := {["timestamp-query"]} |}
     -> required = []) /\
    (forall f, f ∈ required -> f ∈ features {| features := {["timestamp-query"]} |}) /\
    (forall s0, exists device s1,
       requestDevice {| features := {["timestamp-query"]} |} required s0
       = Return device s1).
Proof.
  apply (timestamp_feature_gated world_timestamps
           {| features := {["timestamp-query"]} |} 4096 100).
  reflexivity.
Defined.

(** C6: for every dim > 0 the run creates four buffers, in this order:
    input with size dim * 4, weight with size (dim * dim / 8) * 4, output
    with size dim * 4 and params with size 16; these are the sizes the
    device holds for them, and they are bound at slots 0, 1, 2 and 3. *)
Theorem buffer_sizes (w : World) (a : Adapter) (dim : float) (iterations : nat) :
  adapter w = Some a ->
  (0 <? dim)%float = true ->
  exists m s inputBuffer weightBuffer outputBuffer paramBuffer layout bindGroup,
    benchmark w dim iterations init = Return m s /\
    created_buffers (trace s)
    = [(inputBuffer, (dim * 4)%float,
        Z.lor GPUBufferUsage.STORAGE GPUBufferUsage.COPY_DST);
       (weightBuffer, ((dim * dim / 8) * 4)%float,
        Z.lor GPUBufferUsage.STORAGE GPUBufferUsage.COPY_DST);
       (outputBuffer, (dim * 4)%float,
        Z.lor GPUBufferUsage.STORAGE GPUBufferUsage.COPY_SRC);
       (paramBuffer, 16%float,
        Z.lor GPUBufferUsage.UNIFORM GPUBufferUsage.COPY_DST)] /\
    bind_groups (trace s)
    = [(bindGroup, layout,
        [(0%Z, inputBuffer); (1%Z, weightBuffer);
         (2%Z, outputBuffer); (3%Z, paramBuffer)])] /\
    buf_size <$> buffers s !! inputBuffer = Some (dim * 4)%float /\
    buf_size <$> buffers s !! weightBuffer = Some ((dim * dim / 8) * 4)%float /\
    buf_size <$> buffers s !! outputBuffer = Some (dim * 4)%float /\
    buf_size <$> buffers s !! paramBuffer = Some 16%float.
Proof.
  intros Ha _.
  exists (computed_metrics (clock w 0) (clock w 1) dim iterations),
         (final_state w a dim iterations), 0, 1, 2, 3,
         (getBindGroupLayout (pipeline_of_world w) 0), 4.
  split; [exact (benchmark_run w a dim iterations Ha)|].
  split.
  { cbn [final_state trace]. unfold measured_events.
    rewrite !created_buffers_app, created_buffers_submits. reflexivity. }
  split.
  { cbn [final_state trace]. unfold measured_events.
    rewrite !bind_groups_app, bind_groups_submits. reflexivity. }
  cbn [final_state buffers]. unfold final_buffers.
  split; [by rewrite !lookup_alter_ne, !lookup_insert_ne, lookup_insert_eq by done|].
  split; [by rewrite !lookup_alter_ne, !lookup_insert_ne, lookup_insert_eq by done|].
  split; [by rewrite !lookup_alter_ne, !lookup_insert_ne, lookup_insert_eq by done|].
  rewrite !lookup_alter_eq, lookup_insert_eq. cbn.
  unfold write_buffer. by repeat (case_match; cbn).
Qed.

Lemma buffer_sizes_witness :
  exists m s inputBuffer weightBuffer outputBuffer paramBuffer layout bindGroup,
    benchmark world_250 4096 100 init = Return m s /\
    created_buffers (trace s)
    = [(inputBuffer, (4096 * 4)%float,
        Z.lor GPUBufferUsage.STORAGE GPUBufferUsage.COPY_DST);
       (weightBuffer, ((4096 * 4096 / 8) * 4)%float,
        Z.lor GPUBufferUsage.STORAGE GPUBufferUsage.COPY_DST);
       (outputBuffer, (4096 * 4)%float,
        Z.lor GPUBufferUsage.STORAGE GPUBufferUsage.COPY_SRC);
       (paramBuffer, 16%float,
        Z.lor GPUBufferUsage.UNIFORM GPUBufferUsage.COPY_DST)] /\
    bind_groups (trace s)
    = [(bindGroup, layout,
        [(0%Z, inputBuffer); (1%Z, weightBuffer);
         (2%Z, outputBuffer); (3%Z, paramBuffer)])] /\
    buf_size <$> buffers s !! inputBuffer = Some (4096 * 4)%float /\
    buf_size <$> buffers s !! weightBuffer = Some ((4096 * 4096 / 8) * 4)%float /\
    buf_size <$> buffers s !! outputBuffer = Some (4096 * 4)%float /\
    buf_size <$> buffers s !! paramBuffer = Some 16%float.
Proof.
  apply (buffer_sizes world_250 {| features := ∅ |} 4096 100); reflexivity.
Defined.

(** C9, as the program behaves: building the binding set never fails.
    Whatever binding slots the pipeline declares, the run passes the
    pipeline's layout of group 0 and the four entries 0 = input,
    1 = weight, 2 = output, 3 = params to [createBindGroup], once, and goes
    on to return its metrics. *)
Theorem bind_group_unchecked (w : World) (a : Adapter) (dim : float) (iterations : nat) :
  adapter w = Some a ->
  exists m s bindGroup,
    benchmark w dim iterations init = Return m s /\
    bind_groups (trace s)
    = [(bindGroup, getBindGroupLayout (pipeline_of_world w) 0,
        [(0%Z, 0); (1%Z, 1); (2%Z, 2); (3%Z, 3)])] /\
    map fst (created_buffers (trace s)) = [(0, (dim * 4)%float);
                                           (1, ((dim * dim / 8) * 4)%float);
                                           (2, (dim * 4)%float);
                                           (3, 16%float)].
Proof.
  intros Ha.
  exists (computed_metrics (clock w 0) (clock w 1) dim iterations),
         (final_state w a dim iterations), 4.
  split; [exact (benchmark_run w a dim iterations Ha)|].
  cbn [final_state trace]. unfold measured_events.
  split.
  - rewrite !bind_groups_app, bind_groups_submits. reflexivity.
  - rewrite !created_buffers_app, created_buffers_submits. reflexivity.
Qed.

Lemma bind_group_unchecked_witness :
  exists m s bindGroup,
    benchmark world_three_slots 4096 100 init = Return m s /\
    bind_groups (trace s)
    = [(bindGroup, getBindGroupLayout (pipeline_of_world world_three_slots) 0,
        [(0%Z, 0); (1%Z, 1); (2%Z, 2); (3%Z, 3)])] /\
    map fst (created_buffers (trace s)) = [(0, (4096 * 4)%float);
                                           (1, ((4096 * 4096 / 8) * 4)%float);
                                           (2, (4096 * 4)%float);
                                           (3, 16%float)].
Proof.
  apply (bind_group_unchecked world_three_slots {| features := ∅ |} 4096 100).
  reflexivity.
Defined.

(** C9 as stated fails: with a pipeline that declares the three slots 0, 1
    and 2 the run raises nothing; it builds the bind group with four
    entries against that layout and returns. *)
Lemma three_slots_no_error :
  exists m s,
    runBenchmark world_three_slots init = Return m s /\
    getBindGroupLayout (pipeline_of_world world_three_slots) 0 = [0; 1; 2]%Z /\
    bind_groups (trace s)
    = [(4, [0; 1; 2]%Z, [(0%Z, 0); (1%Z, 1); (2%Z, 2); (3%Z, 3)])].
Proof.
  eexists _, _.
  split; [exact (benchmark_run world_three_slots _ _ _ eq_refl)|].
  split; reflexivity.
Qed.



(** * Further properties of the run *)






(** X4: the warm-up is the measured workload. The submissions of a run are
    the warm-up followed by [iterations] measured command buffers; every
    measured one records exactly the commands the warm-up records (same
    pipeline, same bind group, one dispatch of [dim] workgroups), and all
    of them come from different encoders. *)
Theorem warmup_is_measured_workload (w : World) (a : Adapter) (dim : float)
    (iterations : nat) :
  adapter w = Some a ->
  exists m s warmUp measured,
    benchmark w dim iterations init = Return m s /\
    submitted (trace s) = warmUp :: measured /\
    length measured = iterations /\
    Forall (fun cb => enc_commands cb = enc_commands warmUp) measured /\
    flat_map dispatched (warmUp :: measured) = repeat dim (1 + iterations) /\
    NoDup (map enc_handle (warmUp :: measured)).
Proof.
  intros Ha.
  exists (computed_metrics (clock w 0) (clock w 1) dim iterations),
         (final_state w a dim iterations),
         (pass_buffer (pipeline_of_world w) 4 dim 5),
         (measured_buffers w dim iterations).
  split; [exact (benchmark_run w a dim iterations Ha)|].
  split.
  { rewrite final_trace. unfold measured_events.
    rewrite !submitted_app, submitted_submits.
    cbn [submitted flat_map app setup_events warmup_events].
    by rewrite !app_nil_r. }
  split; [apply measured_buffers_length|].
  split; [apply measured_buffers_commands|].
  split.
  { cbn [flat_map repeat Nat.add]. cbn [dispatched pass_buffer enc_commands
      pass_commands flat_map app]. f_equal.
    unfold measured_buffers. generalize 6.
    induction iterations as [|n IH]; intros start; cbn; [reflexivity|].
    by rewrite IH. }
  cbn [map]. rewrite measured_buffers_handles.
  change (enc_handle (pass_buffer (pipeline_of_world w) 4 dim 5) :: seq 6 iterations)
    with (seq 5 (S iterations)).
  apply NoDup_ListNoDup, seq_NoDup.
Qed.

Lemma warmup_is_measured_workload_witness :
  exists m s warmUp measured,
    benchmark world_250 4096 100 init = Return m s /\
    submitted (trace s) = warmUp :: measured /\
    length measured = 100 /\
    Forall (fun cb => enc_commands cb = enc_commands warmUp) measured /\
    flat_map dispatched (warmUp :: measured) = repeat 4096%float (1 + 100) /\
    NoDup (map enc_handle (warmUp :: measured)).
Proof.
  apply (warmup_is_measured_workload world_250 {| features := ∅ |} 4096 100).
  reflexivity.
Defined.



(** X6: no upload is dropped and none overlaps another. Whatever the
    dimension, each write of a run carries four bytes to a buffer the run
    created with 16 bytes and COPY_DST usage, at a non-negative offset that
    is a multiple of 4 and ends inside the buffer, so it passes the
    validation of [writeBuffer]; together the writes cover bytes 0 to 11,
    each once, and leave bytes 12 to 15 alone. *)
Theorem uploads_accepted (w : World) (a : Adapter) (dim : float) (iterations : nat) :
  adapter w = Some a ->
  exists m s,
    benchmark w dim iterations init = Return m s /\
    Forall (fun wr =>
              exists usage,
                In (wr.1.1, 16%float, usage) (created_buffers (trace s)) /\
                Z.land usage GPUBufferUsage.COPY_DST = GPUBufferUsage.COPY_DST /\
                length wr.2 = 4 /\
                (0 <= wr.1.2)%Z /\ (wr.1.2 mod 4 = 0)%Z /\
                (wr.1.2 + Z.of_nat (length wr.2) <= 16)%Z /\
                valid_write (new_buffer 16%float usage) wr.1.2 wr.2 = true)
           (buffer_writes (trace s)) /\
    flat_map (fun wr => addresses (wr.1.2, wr.2)) (buffer_writes (trace s))
    = [0; 1; 2; 3; 4; 5; 6; 7; 8; 9; 10; 11]%Z.
Proof.
  intros Ha.
  exists (computed_metrics (clock w 0) (clock w 1) dim iterations),
         (final_state w a dim iterations).
  split; [exact (benchmark_run w a dim iterations Ha)|].
  rewrite final_trace. unfold measured_events.
  rewrite !created_buffers_app, created_buffers_submits,
    !buffer_writes_app, buffer_writes_submits.
  cbn [setup_events warmup_events created_buffers buffer_writes flat_map app].
  split; [|reflexivity].
  repeat apply Forall_cons_2; [| | |apply Forall_nil_2];
    (exists uniform_dst; split; [cbn; tauto|];
     split; [reflexivity|]; split; [reflexivity|];
     split; [cbn; lia|]; split; [reflexivity|];
     split; [cbn; lia|reflexivity]).
Qed.

Lemma uploads_accepted_witness :
  exists m s,
    benchmark world_250 4096 100 init = Return m s /\
    Forall (fun wr =>
              exists usage,
                In (wr.1.1, 16%float, usage) (created_buffers (trace s)) /\
                Z.land usage GPUBufferUsage.COPY_DST = GPUBufferUsage.COPY_DST /\
                length wr.2 = 4 /\
                (0 <= wr.1.2)%Z /\ (wr.1.2 mod 4 = 0)%Z /\
                (wr.1.2 + Z.of_nat (length wr.2) <= 16)%Z /\
                valid_write (new_buffer 16%float usage) wr.1.2 wr.2 = true)
           (buffer_writes (trace s)) /\
    flat_map (fun wr => addresses (wr.1.2, wr.2)) (buffer_writes (trace s))
    = [0; 1; 2; 3; 4; 5; 6; 7; 8; 9; 10; 11]%Z.
Proof.
  apply (uploads_accepted world_250 {| features := ∅ |} 4096 100).
  reflexivity.
Defined.

(** X7: a run synchronises with the GPU exactly twice and reads the clock
    exactly twice, whatever the iteration count: the number of waits does
    not grow with the number of submissions, which is 1 + [iterations]. *)
Theorem two_waits_two_reads (w : World) (a : Adapter) (dim : float) (iterations : nat) :
  adapter w = Some a ->
  exists m s,
    benchmark w dim iterations init = Return m s /\
    waits (trace s) = 2 /\
    timestamps (trace s) = [clock w 0; clock w 1] /\
    clock_reads s = 2 /\
    length (submitted (trace s)) = 1 + iterations /\
    length (device_requests (trace s)) = 1.
Proof.
  intros Ha.
  exists (computed_metrics (clock w 0) (clock w 1) dim iterations),
         (final_state w a dim iterations).
  split; [exact (benchmark_run w a dim iterations Ha)|].
  rewrite final_trace. unfold measured_events.
  split; [by rewrite !waits_app, waits_submits|].
  split; [by rewrite !timestamps_app, timestamps_submits|].
  split; [reflexivity|].
  split.
  - rewrite !submitted_app, submitted_submits.
    cbn [submitted flat_map app setup_events warmup_events].
    rewrite !app_nil_r. cbn [length].
    by rewrite measured_buffers_length.
  - by rewrite !device_requests_app, device_requests_submits.
Qed.

Lemma two_waits_two_reads_witness :
  exists m s,
    benchmark world_250 4096 100 init = Return m s /\
    waits (trace s) = 2 /\
    timestamps (trace s) = [clock world_250 0; clock world_250 1] /\
    clock_reads s = 2 /\
    length (submitted (trace s)) = 1 + 100 /\
    length (device_requests (trace s)) = 1.
Proof.
  apply (two_waits_two_reads world_250 {| features := ∅ |} 4096 100).
  reflexivity.
Defined.

(** X8: a run keeps nothing from earlier runs. Started in any state (for
    instance after another run), a run with an adapter returns the metrics
    of its own two clock reads, the next two of the clock; it appends its
    calls to those made before, with 1 + [iterations] submissions; it
    leaves every buffer that existed before as it was; and its own params
    buffer holds the three uploaded words. *)
Theorem run_from_any_state (w : World) (a : Adapter) (dim : float)
    (iterations : nat) (s0 : State) :
  adapter w = Some a ->
  exists m s1 calls start end_,
    benchmark w dim iterations s0 = Return m s1 /\
    trace s1 = trace s0 ++ calls /\
    start = clock w (clock_reads s0) /\
    end_ = clock w (S (clock_reads s0)) /\
    timestamps calls = [start; end_] /\
    latency m = ((end_ - start) / Number.of_nat iterations)%float /\
    tflops m = (((2 * (dim * dim)) / (latency m / 1000)) / 1e12)%float /\
    length (submitted calls) = 1 + iterations /\
    (forall h, h < next_handle s0 -> buffers s1 !! h = buffers s0 !! h) /\
    (fun b => read_bytes b 0 16) <$> buffers s1 !! (3 + next_handle s0)
    = Some (param_block dim).
Proof.
  intros Ha.
  eexists _, _, (calls_from w a dim iterations (next_handle s0) (clock_reads s0)),
    _, _.
  split; [exact (benchmark_run_from w a dim iterations s0 Ha)|].
  split; [reflexivity|].
  split; [reflexivity|].
  split; [reflexivity|].
  split.
  { unfold calls_from. rewrite !timestamps_app, timestamps_submits. reflexivity. }
  split; [reflexivity|].
  split; [reflexivity|].
  split.
  { unfold calls_from. rewrite !submitted_app, submitted_submits.
    cbn [submitted flat_map app]. rewrite !app_nil_r. cbn [length].
    by rewrite length_map, length_seq. }
  split.
  { intros h Hh. cbn [buffers]. unfold buffers_from.
    by rewrite !lookup_alter_ne, !lookup_insert_ne by lia. }
  cbn [buffers]. unfold buffers_from.
  by rewrite !lookup_alter_eq, lookup_insert_eq.
Qed.

Lemma run_from_any_state_witness :
  exists m s1 calls start end_,
    benchmark world_250 4096 100
      (final_state world_250 {| features := ∅ |} 4096 100) = Return m s1 /\
    trace s1 = trace (final_state world_250 {| features := ∅ |} 4096 100) ++ calls /\
    start = clock world_250 2 /\
    end_ = clock world_250 3 /\
    timestamps calls = [start; end_] /\
    latency m = ((end_ - start) / Number.of_nat 100)%float /\
    tflops m = (((2 * (4096 * 4096)) / (latency m / 1000)) / 1e12)%float /\
    length (submitted calls) = 1 + 100 /\
    (forall h, h < 106 -> buffers s1 !! h = final_buffers 4096 !! h) /\
    (fun b => read_bytes b 0 16) <$> buffers s1 !! (3 + 106)
    = Some (param_block 4096).
Proof.
  apply (run_from_any_state world_250 {| features := ∅ |} 4096 100
           (final_state world_250 {| features := ∅ |} 4096 100)).
  reflexivity.
Defined.
